(** * fabfile.py: the task runner of the ua_utilities solution

    A shallow embedding of [fabfile.py] and of the few library calls it
    makes ([os.path.join], [fabric.api.local], [shutil.rmtree]), followed by
    the properties of its tasks.

    - Strings are [string]; the double quote of a shell command is [dquote].
    - A task is a function from the outside world (which decides whether a
      shell command exits with an accepted code, and whether a directory can
      be removed) and the history of what was done so far, to an outcome
      (returned or raised) and the events the task emitted, in order.
    - The module's global names live in a [gmap string value]; the tasks read
      them through a [settings] record. *)

From Stdlib Require Import String Ascii List Bool Arith Lia.
From stdpp Require Import base option gmap strings list.
Import ListNotations.
Open Scope string_scope.
Open Scope list_scope.

(** ** Python strings *)

Module pystr.

(** The character [chr(34)], which delimits the executable in a command. *)
Definition dquote : string := String (ascii_of_nat 34) EmptyString.

(** Truth value of a string: the empty string is false. *)
Definition truthy (s : string) : bool :=
  match s with
  | EmptyString => false
  | String _ _ => true
  end.

(** [s[0:1]] as an optional character. *)
Definition first (s : string) : option ascii :=
  match s with
  | EmptyString => None
  | String c _ => Some c
  end.

(** [s[-1:]] as an optional character. *)
Fixpoint last (s : string) : option ascii :=
  match s with
  | EmptyString => None
  | String c EmptyString => Some c
  | String _ r => last r
  end.

(** [s[i:]] *)
Fixpoint drop (i : nat) (s : string) : string :=
  match i, s with
  | O, _ => s
  | S _, EmptyString => EmptyString
  | S i', String _ r => drop i' r
  end.

(** [s[:i]] *)
Fixpoint take (i : nat) (s : string) : string :=
  match i, s with
  | O, _ => EmptyString
  | S _, EmptyString => EmptyString
  | S i', String c r => String c (take i' r)
  end.

(** [s.replace(a, b)] for single characters. *)
Fixpoint replace (a b : ascii) (s : string) : string :=
  match s with
  | EmptyString => EmptyString
  | String c r => String (if Ascii.eqb c a then b else c) (replace a b r)
  end.

(** Position of the first [c] in [s], counted from [off]: the recursion
    behind [s.find(c, start)]. *)
Fixpoint find_from (c : ascii) (off : nat) (s : string) : option nat :=
  match s with
  | EmptyString => None
  | String d r => if Ascii.eqb d c then Some off else find_from c (S off) r
  end.

(** [s.find(c, start)], with [None] for -1. *)
Definition find (c : ascii) (start : nat) (s : string) : option nat :=
  find_from c start (drop start s).

Definition lower_char (c : ascii) : ascii :=
  let n := nat_of_ascii c in
  if Nat.leb 65 n && Nat.leb n 90 then ascii_of_nat (n + 32) else c.

(** [s.lower()] on ASCII. *)
Fixpoint lower (s : string) : string :=
  match s with
  | EmptyString => EmptyString
  | String c r => String (lower_char c) (lower r)
  end.

(** [needle in hay] *)
Fixpoint contains (needle hay : string) : bool :=
  String.prefix needle hay ||
  match hay with
  | EmptyString => false
  | String _ r => contains needle r
  end.

End pystr.

Import pystr.

(** ** os.path.join

    [os.path] is [ntpath] on Windows and [posixpath] elsewhere.  Both [join]s
    are transcribed from the Python standard library. *)

Module ospath.

Inductive platform : Type :=
| nt
| posix.

Definition backslash : ascii := ascii_of_nat 92.
Definition slash : ascii := ascii_of_nat 47.
Definition colon : ascii := ascii_of_nat 58.

(** [os.sep] *)
Definition sep (os : platform) : string :=
  match os with
  | nt => String backslash EmptyString
  | posix => String slash EmptyString
  end.

(** [c in '\\/'] for an optional character; false at [None]. *)
Definition is_nt_sep (c : option ascii) : bool :=
  match c with
  | Some c => Ascii.eqb c backslash || Ascii.eqb c slash
  | None => false
  end.

Definition opt_ascii_eqb (a b : option ascii) : bool :=
  match a, b with
  | Some x, Some y => Ascii.eqb x y
  | None, None => true
  | _, _ => false
  end.

(** [posixpath.join(a, *p)] *)
Definition posix_join_step (path b : string) : string :=
  if String.prefix "/" b then b
  else if negb (truthy path) || opt_ascii_eqb (last path) (Some slash)
       then path +:+ b
       else path +:+ "/" +:+ b.

Definition posix_join (a : string) (p : list string) : string :=
  fold_left posix_join_step p a.

(** [ntpath.splitdrive(p)]: a drive letter with its colon, or a UNC
    share [\\host\mount], split off the rest of the path. *)
Definition nt_splitdrive (p : string) : string * string :=
  if Nat.ltb 1 (String.length p) then
    let normp := replace slash backslash p in
    if String.eqb (take 2 normp) (String backslash (String backslash EmptyString))
       && negb (String.eqb (take 1 (drop 2 normp)) (String backslash EmptyString))
    then
      match find backslash 2 normp with
      | None => (EmptyString, p)
      | Some index =>
          match find backslash (index + 1) normp with
          | None => (p, EmptyString)
          | Some index2 =>
              if Nat.eqb index2 (index + 1) then (EmptyString, p)
              else (take index2 p, drop index2 p)
          end
      end
    else if opt_ascii_eqb (String.get 1 normp) (Some colon)
    then (take 2 p, drop 2 p)
    else (EmptyString, p)
  else (EmptyString, p).

(** One turn of the loop of [ntpath.join] over the later components; the
    state is [(result_drive, result_path)]. *)
Definition nt_join_step (st : string * string) (p : string) : string * string :=
  let '(result_drive, result_path) := st in
  let '(p_drive, p_path) := nt_splitdrive p in
  if truthy p_path && is_nt_sep (first p_path) then
    (if truthy p_drive || negb (truthy result_drive) then p_drive else result_drive,
     p_path)
  else
    let append (drive : string) :=
      let result_path :=
        if truthy result_path && negb (is_nt_sep (last result_path))
        then result_path +:+ String backslash EmptyString
        else result_path in
      (drive, result_path +:+ p_path) in
    if truthy p_drive && negb (String.eqb p_drive result_drive) then
      if negb (String.eqb (lower p_drive) (lower result_drive))
      then (p_drive, p_path)
      else append p_drive
    else append result_drive.

(** [ntpath.join(path, *paths)] *)
Definition nt_join (path : string) (paths : list string) : string :=
  let '(result_drive, result_path) :=
    fold_left nt_join_step paths (nt_splitdrive path) in
  if truthy result_path && negb (is_nt_sep (first result_path))
     && truthy result_drive && negb (opt_ascii_eqb (last result_drive) (Some colon))
  then result_drive +:+ String backslash EmptyString +:+ result_path
  else result_drive +:+ result_path.

(** [os.path.join(a, *p)] *)
Definition join (os : platform) (a : string) (p : list string) : string :=
  match os with
  | nt => nt_join a p
  | posix => posix_join a p
  end.

End ospath.

Import ospath.

(** ** Effects: fabric.api.local and shutil.rmtree *)

Module fab.

(** What a task does to the outside: it runs a shell command or tries to
    remove a directory tree. *)
Inductive event : Type :=
| Local (command : string)
| Rmtree (path : string).

Abbreviation trace := (list event).

(** [local] aborts with [SystemExit] on an exit code that is not accepted;
    [rmtree] raises [OSError] unless told to ignore errors. *)
Inductive exn : Type :=
| SystemExit (command : string)
| OSError (path : string).

Inductive outcome (A : Type) : Type :=
| Returned (a : A)
| Raised (e : exn).
Arguments Returned {A} a.
Arguments Raised {A} e.

(** The outside world: given what has happened so far, does this shell
    command exit with an accepted code, and can this tree be removed
    without error (it cannot when the directory is absent). *)
Record world : Type := World {
  shell_ok : trace -> string -> bool;
  rmtree_ok : trace -> string -> bool
}.

(** A task: from the world and the history to an outcome and the events
    emitted by the task itself. *)
Definition task (A : Type) : Type := world -> trace -> outcome A * trace.

Definition ret {A : Type} (a : A) : task A :=
  fun _ _ => (Returned a, []).

Definition bind {A B : Type} (m : task A) (k : A -> task B) : task B :=
  fun w h =>
    match m w h with
    | (Returned a, e1) =>
        let '(r, e2) := k a w (h ++ e1) in (r, e1 ++ e2)
    | (Raised e, e1) => (Raised e, e1)
    end.

(** [try: m  except: handler] with a bare [except]. *)
Definition try_except {A : Type} (m : task A) (handler : task A) : task A :=
  fun w h =>
    match m w h with
    | (Returned a, e1) => (Returned a, e1)
    | (Raised _, e1) =>
        let '(r, e2) := handler w (h ++ e1) in (r, e1 ++ e2)
    end.

(** [fabric.api.local(command)]: runs the command in a shell and, with
    Fabric's default settings, aborts by raising [SystemExit] when the exit
    code is not an accepted one. *)
Definition local (command : string) : task unit :=
  fun w h =>
    (if shell_ok w h command then Returned tt else Raised (SystemExit command),
     [Local command]).

(** [shutil.rmtree(path, ignore_errors)]: an error met while removing is
    raised only when [ignore_errors] is false. *)
Definition rmtree (path : string) (ignore_errors : bool) : task unit :=
  fun w h =>
    (if rmtree_ok w h path || ignore_errors then Returned tt
     else Raised (OSError path),
     [Rmtree path]).

End fab.

Import fab.

#[global] Instance task_ret : MRet task := @ret.
#[global] Instance task_bind : MBind task := fun A B k m => bind m k.

(** [for x in xs: body(x)] *)
Fixpoint for_in {A : Type} (xs : list A) (body : A -> task unit) : task unit :=
  match xs with
  | [] => mret tt
  | x :: xs' => body x ;; for_in xs' body
  end.

(** ** The module's global settings *)

Record settings : Type := Settings {
  ms_build_path : string;
  nunit_path : string;
  nuget_path : string;
  impl_projects : list string;
  test_projects : list string;
  projects : list string;
  solution : string
}.

(** ** The tasks of fabfile.py *)

Section Tasks.

Variable os : platform.
Variable g : settings.

(** The command line [ms_build] hands to [local]; [cmd_add] reads the
    current [build_cmd] each time it is called. *)
Definition cmd_add (build_cmd cmd : string) : string :=
  if truthy cmd then build_cmd +:+ " " +:+ cmd else build_cmd.

Definition ms_build_cmd
    (solution target : string) (config : option string) (more : string) : string :=
  let ms_build := join os (ms_build_path g) ["MSBuild.exe"] in
  let build_cmd := dquote +:+ ms_build +:+ dquote in
  let build_cmd := cmd_add build_cmd more in
  let build_cmd := cmd_add build_cmd ("/t:" +:+ target) in
  let build_cmd :=
    match config with
    | Some config =>
        if truthy config
        then cmd_add build_cmd ("/p:Configuration=" +:+ config)
        else build_cmd
    | None => build_cmd
    end in
  cmd_add build_cmd (solution +:+ ".sln").

(** [def ms_build(solution, target='Build', config=None, more='/m')] *)
Definition ms_build
    (solution target : string) (config : option string) (more : string) : task unit :=
  local (ms_build_cmd solution target config more).

Definition restore_cmd (p : string) : string :=
  let pm_path := join os (nuget_path g) ["nuget.exe"] in
  let packages_config := join os p ["packages.config"] in
  dquote +:+ pm_path +:+ dquote +:+ " install -OutputDirectory packages "
    +:+ packages_config.

Definition update_packages : task unit :=
  for_in (projects g) (fun p => local (restore_cmd p)).

Definition test_cmd (path_to_dll : string) : string :=
  let nunit := join os (nunit_path g) ["nunit3-console.exe"] in
  dquote +:+ nunit +:+ dquote +:+ " " +:+ path_to_dll +:+ ".dll".

Definition test_impl (path_to_dll : string) : task unit :=
  local (test_cmd path_to_dll).

Definition start : task unit := local "tools\start.bat".
Definition start_sc : task unit := local "tools\start_application.bat ServerConsole".
Definition start_oc : task unit := local "tools\start_application.bat OfficeConsole".
Definition start_mcc : task unit :=
  local "tools\start_application.bat MultiClientConsole".
Definition stop : task unit := local "tools\stop.bat".

Definition update_env : task unit := update_packages.

Definition build : task unit :=
  ms_build (solution g) "Build" (Some "Debug") "/m".

Definition release : task unit :=
  ms_build (solution g) "Build" (Some "Release") "/m".

Definition clean : task unit :=
  ms_build (solution g) "Clean" None "/m" ;;
  for_in (projects g) (fun p =>
    for_in ["obj"; "bin"] (fun sf =>
      rmtree (join os p [sf]) true)).

Definition rebuild : task unit :=
  clean ;; update_env ;; build.

Definition restart : task unit :=
  stop ;; rebuild ;; start.

Definition test_path (t : string) : string :=
  let path_to_test_lib := join os "." [t; "bin"; "Debug"] in
  join os path_to_test_lib [t].

Definition test_loop : task unit :=
  for_in (test_projects g) (fun t => test_impl (test_path t)).

Definition test : task unit :=
  start_sc ;;
  try_except test_loop (mret tt) ;;
  stop.

End Tasks.

(** ** Module start-up

    The top level of fabfile.py binds the global names the tasks read.  The
    namespace tracks the data globals (strings and lists of strings);
    [fabfile_local] is whatever [from fabfile_local import *] finds. *)

Inductive value : Type :=
| VStr (s : string)
| VList (l : list string).

Inductive import_outcome : Type :=
| Imported (exports : gmap string value)
| ImportError
| OtherError.

(** Names a star import binds: those not starting with an underscore. *)
Definition public (name : string) : bool := negb (String.prefix "_" name).

Definition import_star (exports : gmap string value) (globals : gmap string value)
  : gmap string value :=
  filter (fun kv => public kv.1 = true) exports ∪ globals.

(** Lines 10-13: the import, with [ImportError] swallowed. *)
Definition try_import_local (fabfile_local : import_outcome) (globals : gmap string value)
  : option (gmap string value) :=
  match fabfile_local with
  | Imported exports => Some (import_star exports globals)
  | ImportError => Some globals
  | OtherError => None
  end.

Definition lookup_list (globals : gmap string value) (name : string)
  : option (list string) :=
  match globals !! name with
  | Some (VList l) => Some l
  | _ => None
  end.

Definition lookup_str (globals : gmap string value) (name : string) : option string :=
  match globals !! name with
  | Some (VStr s) => Some s
  | _ => None
  end.

(** Lines 10-26, in source order; [None] when start-up raises. *)
Definition toplevel (fabfile_local : import_outcome) : option (gmap string value) :=
  globals ← try_import_local fabfile_local ∅;
  let globals :=
    <["ms_build_path" := VStr "C:\Program Files (x86)\MSBuild\14.0\Bin"]> globals in
  let globals :=
    <["nunit_path" := VStr "C:\Program Files (x86)\NUnit.org\nunit-console"]> globals in
  let globals :=
    <["nuget_path" := VStr "C:\Program Files (x86)\NuGet"]> globals in
  let globals :=
    <["impl_projects" :=
        VList ["MultiClientConsole"; "ServerConsole"; "OfficeConsole";
               "UaclServer"; "UaclClient"; "UaclUtils"]]> globals in
  let globals :=
    <["test_projects" :=
        VList ["TestServerConsole"; "TestOfficeConsole"; "TestUaclClient";
               "TestUaclUtils"]]> globals in
  impl ← lookup_list globals "impl_projects";
  tests ← lookup_list globals "test_projects";
  let globals := <["projects" := VList (impl ++ tests)]> globals in
  Some (<["solution" := VStr "ua_utilities"]> globals).

(** The globals as the tasks read them. *)
Definition settings_of (globals : gmap string value) : option settings :=
  ms_build_path ← lookup_str globals "ms_build_path";
  nunit_path ← lookup_str globals "nunit_path";
  nuget_path ← lookup_str globals "nuget_path";
  impl_projects ← lookup_list globals "impl_projects";
  test_projects ← lookup_list globals "test_projects";
  projects ← lookup_list globals "projects";
  solution ← lookup_str globals "solution";
  Some (Settings ms_build_path nunit_path nuget_path
                 impl_projects test_projects projects solution).

Definition startup (fabfile_local : import_outcome) : option settings :=
  toplevel fabfile_local ≫= settings_of.

(** The values written in fabfile.py itself. *)
Definition defaults : settings := {|
  ms_build_path := "C:\Program Files (x86)\MSBuild\14.0\Bin";
  nunit_path := "C:\Program Files (x86)\NUnit.org\nunit-console";
  nuget_path := "C:\Program Files (x86)\NuGet";
  impl_projects := ["MultiClientConsole"; "ServerConsole"; "OfficeConsole";
                    "UaclServer"; "UaclClient"; "UaclUtils"];
  test_projects := ["TestServerConsole"; "TestOfficeConsole"; "TestUaclClient";
                    "TestUaclUtils"];
  projects := ["MultiClientConsole"; "ServerConsole"; "OfficeConsole";
               "UaclServer"; "UaclClient"; "UaclUtils";
               "TestServerConsole"; "TestOfficeConsole"; "TestUaclClient";
               "TestUaclUtils"];
  solution := "ua_utilities"
|}.

(** A [fabfile_local.py] that holds the one line
    [ms_build_path = r'D:\BuildTools\MSBuild\Bin']. *)
Definition local_override : gmap string value :=
  {["ms_build_path" := VStr "D:\BuildTools\MSBuild\Bin"]}.

(** ** Observing a run *)

#[global] Instance event_eq_dec : EqDecision event.
Proof. solve_decision. Defined.

(** How often [command] was handed to the shell in a trace. *)
Definition invocations (command : string) (t : trace) : nat :=
  length (filter (fun e => e = Local command) t).

(** How often removal of [path] was attempted in a trace. *)
Definition removals (path : string) (t : trace) : nat :=
  length (filter (fun e => e = Rmtree path) t).

(** Do the commands, run one after the other from history [h], all exit
    with an accepted code. *)
Fixpoint all_ok (w : world) (h : trace) (commands : list string) : bool :=
  match commands with
  | [] => true
  | c :: cs => shell_ok w h c && all_ok w (h ++ [Local c]) cs
  end.

(** The history at the moment [test] reaches its last line, [stop()]. *)
Definition history_at_stop (os : platform) (g : settings) (w : world) (h : trace)
  : trace :=
  h ++ Local "tools\start_application.bat ServerConsole"
       :: snd (test_loop os g w (h ++ [Local "tools\start_application.bat ServerConsole"])).

(** Every run of [test] hands the stop script to the shell exactly once. *)
Definition test_always_stops_once : Prop :=
  forall (os : platform) (g : settings) (w : world) (h : trace),
    invocations "tools\stop.bat" (snd (test os g w h)) = 1.

(** Worlds used as concrete inputs. *)
Definition world_all_ok : world :=
  World (fun _ _ => true) (fun _ _ => true).

(** Every command fails and every directory is absent. *)
Definition world_all_fail : world :=
  World (fun _ _ => false) (fun _ _ => false).

(** The scripts under tools/ work, every quoted executable (build tool,
    package restorer, test runner) fails, no directory exists. *)
Definition world_tools_fail : world :=
  World (fun _ c => negb (String.prefix dquote c)) (fun _ _ => false).

(** Everything works except the stop script; no directory exists. *)
Definition world_stop_fails : world :=
  World (fun _ c => negb (String.eqb c "tools\stop.bat")) (fun _ _ => false).

(** The restore of [ServerConsole] fails (say, no packages.config there),
    all else works. *)
Definition world_restore_fails : world :=
  World (fun _ c => negb (contains "packages ServerConsole" c)) (fun _ _ => true).

(** The second test project's run of the test runner fails, all else
    works; no directory exists. *)
Definition world_second_test_fails : world :=
  World (fun _ c => negb (contains "TestOfficeConsole" c)) (fun _ _ => false).

(** The configuration flag of [ms_build]: present for a non-empty [config]
    only. *)
Definition config_segment (config : option string) : string :=
  match config with
  | Some c => if truthy c then "/p:Configuration=" +:+ c else EmptyString
  | None => EmptyString
  end.



(** The removal attempts of [clean] for one project. *)
Definition project_removals (os : platform) (p : string) : trace :=
  [Rmtree (join os p ["obj"]); Rmtree (join os p ["bin"])].

(** Is the event an attempt to remove a directory tree. *)
Definition is_removal (e : event) : bool :=
  match e with
  | Rmtree _ => true
  | Local _ => false
  end.

(** * Properties *)

(** ** Sequencing, loops and handlers *)

Lemma bind_run {A B : Type} (m : task A) (k : A -> task B) (w : world) (h : trace) :
  (m ≫= k) w h =
  match m w h with
  | (Returned a, e1) => let '(r, e2) := k a w (h ++ e1) in (r, e1 ++ e2)
  | (Raised e, e1) => (Raised e, e1)
  end.
Proof. reflexivity. Qed.

Lemma local_run (c : string) (w : world) (h : trace) :
  local c w h =
  (if shell_ok w h c then Returned tt else Raised (SystemExit c), [Local c]).
Proof. reflexivity. Qed.

Lemma seq_local_run (c : string) (k : task unit) (w : world) (h : trace) :
  (local c ;; k) w h =
  if shell_ok w h c
  then let '(r, e) := k w (h ++ [Local c]) in (r, Local c :: e)
  else (Raised (SystemExit c), [Local c]).
Proof.
  rewrite bind_run, local_run.
  destruct (shell_ok w h c); reflexivity.
Qed.

Lemma for_in_nil {A : Type} (body : A -> task unit) (w : world) (h : trace) :
  for_in [] body w h = (Returned tt, []).
Proof. reflexivity. Qed.

Lemma for_in_cons {A : Type} (x : A) (xs : list A) (body : A -> task unit) :
  for_in (x :: xs) body = (body x ;; for_in xs body).
Proof. reflexivity. Qed.

(** A loop of shell commands that all succeed runs every one of them, in
    the order of the list. *)
Lemma for_in_local_ok {A : Type} (f : A -> string) (xs : list A) :
  forall (w : world) (h : trace),
    all_ok w h (map f xs) = true ->
    for_in xs (fun x => local (f x)) w h =
    (Returned tt, map (fun x => Local (f x)) xs).
Proof.
  induction xs as [|x xs IH]; intros w h Hok.
  - reflexivity.
  - simpl in Hok. apply andb_prop in Hok as [Hx Hxs].
    rewrite for_in_cons, seq_local_run, Hx.
    rewrite (IH w (h ++ [Local (f x)]) Hxs). reflexivity.
Qed.

(** A loop of shell commands stops at the first one that fails. *)
Lemma for_in_local_fail {A : Type} (f : A -> string) (pre : list A) (x : A) (post : list A) :
  forall (w : world) (h : trace),
    all_ok w h (map f pre) = true ->
    shell_ok w (h ++ map (fun y => Local (f y)) pre) (f x) = false ->
    for_in (pre ++ x :: post) (fun y => local (f y)) w h =
    (Raised (SystemExit (f x)), map (fun y => Local (f y)) pre ++ [Local (f x)]).
Proof.
  induction pre as [|y pre IH]; intros w h Hok Hfail.
  - simpl in Hfail. rewrite app_nil_r in Hfail.
    simpl app. rewrite for_in_cons, seq_local_run, Hfail. reflexivity.
  - simpl in Hok. apply andb_prop in Hok as [Hy Hpre].
    change ((y :: pre) ++ x :: post) with (y :: (pre ++ x :: post)).
    rewrite for_in_cons, seq_local_run, Hy.
    rewrite (IH w (h ++ [Local (f y)]) Hpre).
    + reflexivity.
    + rewrite <- app_assoc. exact Hfail.
Qed.

(** Whatever happens, a loop of shell commands emits a run of those
    commands and nothing else. *)
Lemma for_in_local_events {A : Type} (f : A -> string) (xs : list A) :
  forall (w : world) (h : trace),
    exists ys : list A, snd (for_in xs (fun x => local (f x)) w h)
                        = map (fun x => Local (f x)) ys.
Proof.
  induction xs as [|x xs IH]; intros w h.
  - exists []. reflexivity.
  - rewrite for_in_cons, seq_local_run.
    destruct (shell_ok w h (f x)).
    + destruct (IH w (h ++ [Local (f x)])) as [ys Hys].
      destruct (for_in xs _ w _) as [r e]. simpl in Hys. subst e.
      exists (x :: ys). reflexivity.
    + exists [x]. reflexivity.
Qed.

(** Three statements in a row: the first to raise ends the sequence. *)
Lemma seq3_run (a b c : task unit) (w : world) (h : trace) :
  (a ;; b ;; c) w h =
  match a w h with
  | (Raised e, e1) => (Raised e, e1)
  | (Returned _, e1) =>
      match b w (h ++ e1) with
      | (Raised e, e2) => (Raised e, e1 ++ e2)
      | (Returned _, e2) =>
          (fst (c w (h ++ e1 ++ e2)), e1 ++ e2 ++ snd (c w (h ++ e1 ++ e2)))
      end
  end.
Proof.
  rewrite bind_run.
  destruct (a w h) as [[[]|e] e1]; [|reflexivity].
  rewrite bind_run.
  destruct (b w (h ++ e1)) as [[[]|e] e2]; [|reflexivity].
  cbv beta iota. rewrite <- app_assoc.
  destruct (c w (h ++ e1 ++ e2)) as [r e3]. reflexivity.
Qed.

(** A bare [except: pass] turns every outcome into a normal return. *)
Lemma try_except_pass_run (m : task unit) (w : world) (h : trace) :
  try_except m (mret tt) w h = (Returned tt, snd (m w h)).
Proof.
  unfold try_except. destruct (m w h) as [[[]|e] e1]; simpl.
  - reflexivity.
  - rewrite app_nil_r. reflexivity.
Qed.

(** Removal with [ignore_errors=True] returns normally in every world. *)
Lemma rmtree_ignore_run (path : string) (w : world) (h : trace) :
  rmtree path true w h = (Returned tt, [Rmtree path]).
Proof.
  unfold rmtree. rewrite orb_true_r. reflexivity.
Qed.

Lemma prefix_append (a b : string) : String.prefix a (a +:+ b) = true.
Proof.
  induction a as [|c a IH].
  - destruct b; reflexivity.
  - change (String c a +:+ b) with (String c (a +:+ b)).
    cbn [String.prefix]. destruct (ascii_dec c c); [exact IH|congruence].
Qed.

Lemma invocations_app (c : string) (t1 t2 : trace) :
  invocations c (t1 ++ t2) = invocations c t1 + invocations c t2.
Proof.
  unfold invocations. rewrite filter_app, length_app. reflexivity.
Qed.

Lemma invocations_cons (c d : string) (t : trace) :
  invocations c (Local d :: t) =
  (if decide (d = c) then 1 else 0) + invocations c t.
Proof.
  unfold invocations. rewrite filter_cons.
  destruct (decide (d = c)) as [->|Hne].
  - rewrite decide_True by reflexivity. reflexivity.
  - rewrite decide_False by congruence. reflexivity.
Qed.

(** ** The test task *)

Section TestTask.

Variable os : platform.
Variable g : settings.

(** The whole behaviour of [test]: a failed start leaves at once; otherwise
    the loop runs, its outcome is dropped, and the outcome is that of
    [stop]. *)
Lemma test_run (w : world) (h : trace) :
  test os g w h =
  if shell_ok w h "tools\start_application.bat ServerConsole" then
    (if shell_ok w (history_at_stop os g w h) "tools\stop.bat"
     then Returned tt else Raised (SystemExit "tools\stop.bat"),
     Local "tools\start_application.bat ServerConsole"
       :: snd (test_loop os g w (h ++ [Local "tools\start_application.bat ServerConsole"]))
       ++ [Local "tools\stop.bat"])
  else
    (Raised (SystemExit "tools\start_application.bat ServerConsole"),
     [Local "tools\start_application.bat ServerConsole"]).
Proof.
  unfold test, start_sc, stop, history_at_stop.
  rewrite seq_local_run.
  destruct (shell_ok w h _); [|reflexivity].
  rewrite bind_run, try_except_pass_run, local_run.
  rewrite <- app_assoc. reflexivity.
Qed.

Lemma test_cmd_quoted (path_to_dll : string) :
  String.prefix dquote (test_cmd os g path_to_dll) = true.
Proof. unfold test_cmd. apply prefix_append. Qed.

Lemma test_cmd_not_stop (path_to_dll : string) :
  test_cmd os g path_to_dll <> "tools\stop.bat".
Proof.
  intros H. pose proof (test_cmd_quoted path_to_dll) as Hq.
  rewrite H in Hq. discriminate Hq.
Qed.

(** The loop over the test projects never runs the stop script. *)
Lemma test_loop_no_stop (w : world) (h : trace) :
  invocations "tools\stop.bat" (snd (test_loop os g w h)) = 0.
Proof.
  unfold test_loop, test_impl.
  destruct (for_in_local_events (fun t => test_cmd os g (test_path os t))
              (test_projects g) w h) as [ys ->].
  induction ys as [|y ys IH]; [reflexivity|].
  simpl map. rewrite invocations_cons, IH.
  rewrite decide_False by apply test_cmd_not_stop. reflexivity.
Qed.

(** When the server application does not start, [test] leaves before the
    [try] and [stop] is never reached. *)
Lemma test_start_failure (w : world) (h : trace) :
  shell_ok w h "tools\start_application.bat ServerConsole" = false ->
  test os g w h =
  (Raised (SystemExit "tools\start_application.bat ServerConsole"),
   [Local "tools\start_application.bat ServerConsole"]).
Proof. intros Hs. rewrite test_run, Hs. reflexivity. Qed.

End TestTask.

(** C1, counterexample: when [start_sc] fails (every command exits with an
    error), [test] raises on its first line, which stands before the [try],
    and the stop script is invoked zero times. *)
Lemma test_always_stops_once_fails : ~ test_always_stops_once.
Proof.
  intros H. specialize (H nt defaults world_all_fail []).
  vm_compute in H. discriminate H.
Qed.

(** C1, amended: in every run of [test] in which starting the server
    application succeeds, the stop script is invoked exactly once, whether
    or not a test-runner invocation fails. *)
Theorem test_stops_once_after_start
    (os : platform) (g : settings) (w : world) (h : trace) :
  shell_ok w h "tools\start_application.bat ServerConsole" = true ->
  invocations "tools\stop.bat" (snd (test os g w h)) = 1.
Proof.
  intros Hs. rewrite test_run, Hs. simpl snd.
  rewrite invocations_cons, invocations_app, test_loop_no_stop.
  rewrite decide_False by discriminate. reflexivity.
Qed.

Lemma test_stops_once_after_start_witness :
  shell_ok world_tools_fail [] "tools\start_application.bat ServerConsole" = true /\
  fst (test_loop nt defaults world_tools_fail
         [Local "tools\start_application.bat ServerConsole"])
  <> Returned tt /\
  invocations "tools\stop.bat" (snd (test nt defaults world_tools_fail [])) = 1.
Proof.
  split; [reflexivity|]. split; [vm_compute; discriminate|].
  apply (test_stops_once_after_start nt defaults world_tools_fail []).
  reflexivity.
Defined.

(** C5: a failure of a test-runner invocation inside the loop of [test] is
    caught by the bare [except] and dropped; with the server started and
    the stop script working, [test] returns normally, whatever the test
    runner did. *)
Theorem test_hides_test_failures
    (os : platform) (g : settings) (w : world) (h : trace) :
  shell_ok w h "tools\start_application.bat ServerConsole" = true ->
  shell_ok w (history_at_stop os g w h) "tools\stop.bat" = true ->
  fst (try_except (test_loop os g) (mret tt) w
         (h ++ [Local "tools\start_application.bat ServerConsole"])) = Returned tt /\
  fst (test os g w h) = Returned tt.
Proof.
  intros Hs Hstop. split.
  - rewrite try_except_pass_run. reflexivity.
  - rewrite test_run, Hs, Hstop. reflexivity.
Qed.

Lemma test_hides_test_failures_witness :
  fst (test_loop nt defaults world_tools_fail
         [Local "tools\start_application.bat ServerConsole"])
  = Raised (SystemExit (test_cmd nt defaults (test_path nt "TestServerConsole"))) /\
  fst (test nt defaults world_tools_fail []) = Returned tt.
Proof.
  split; [reflexivity|].
  apply (test_hides_test_failures nt defaults world_tools_fail []); reflexivity.
Defined.

(** C10: only the loop is guarded: when the stop script fails, [test]
    raises that failure to its caller. *)
Theorem test_stop_failure_propagates
    (os : platform) (g : settings) (w : world) (h : trace) :
  shell_ok w h "tools\start_application.bat ServerConsole" = true ->
  shell_ok w (history_at_stop os g w h) "tools\stop.bat" = false ->
  fst (test os g w h) = Raised (SystemExit "tools\stop.bat").
Proof.
  intros Hs Hstop. rewrite test_run, Hs, Hstop. reflexivity.
Qed.

Lemma test_stop_failure_propagates_witness :
  fst (test nt defaults world_stop_fails []) = Raised (SystemExit "tools\stop.bat").
Proof.
  apply (test_stop_failure_propagates nt defaults world_stop_fails []); reflexivity.
Defined.

(** ** Start-up *)

(** Every setting is assigned after the import of [fabfile_local], so what
    the tasks read does not depend on what that module exports. *)
Lemma startup_imported (exports : gmap string value) :
  startup (Imported exports) = Some defaults.
Proof.
  unfold startup, toplevel, try_import_local, settings_of, lookup_list, lookup_str.
  simpl. by simplify_map_eq.
Qed.

(** Without a [fabfile_local] the [ImportError] is swallowed and start-up
    yields the values written in fabfile.py. *)
Lemma startup_absent : startup ImportError = Some defaults.
Proof. vm_compute. reflexivity. Qed.

(** An exception other than [ImportError] leaves the [try] and start-up
    fails. *)
Lemma startup_other_error : startup OtherError = None.
Proof. reflexivity. Qed.

(** C9, the code at a [fabfile_local] that sets [ms_build_path]: the name
    is bound by the import and then bound again by line 18, so start-up
    succeeds with the path of fabfile.py, not the local one, and the build
    command still names the default executable. *)
Theorem startup_ignores_local_override :
  local_override !! "ms_build_path" = Some (VStr "D:\BuildTools\MSBuild\Bin") /\
  (try_import_local (Imported local_override) ∅ ≫= fun globals =>
     globals !! "ms_build_path") = Some (VStr "D:\BuildTools\MSBuild\Bin") /\
  startup (Imported local_override) = Some defaults /\
  ms_build_path <$> startup (Imported local_override)
  = Some "C:\Program Files (x86)\MSBuild\14.0\Bin" /\
  ms_build_path <$> startup (Imported local_override)
  <> Some "D:\BuildTools\MSBuild\Bin".
Proof.
  rewrite startup_imported.
  split; [reflexivity|]. split; [vm_compute; reflexivity|].
  split; [reflexivity|]. split; [reflexivity|]. discriminate.
Qed.

(** ** Build commands *)

Lemma truthy_append_r (a b : string) : truthy b = true -> truthy (a +:+ b) = true.
Proof. destruct a; [|reflexivity]. destruct b; intros H; exact H. Qed.

Lemma cmd_add_truthy (build_cmd cmd : string) :
  truthy cmd = true -> cmd_add build_cmd cmd = build_cmd +:+ " " +:+ cmd.
Proof. unfold cmd_add. intros ->. reflexivity. Qed.

Lemma append_assoc (a b c : string) : (a +:+ b) +:+ c = a +:+ (b +:+ c).
Proof.
  induction a as [|x a IH]; [reflexivity|].
  change (String x a +:+ b) with (String x (a +:+ b)).
  change (String x (a +:+ b) +:+ c) with (String x ((a +:+ b) +:+ c)).
  rewrite IH. reflexivity.
Qed.

(** With a configuration the command is the quoted executable, the default
    flag, the target, the configuration and the solution file, in this
    order, with one space between neighbours. *)
Lemma ms_build_cmd_with_config
    (os : platform) (g : settings) (sol target config : string) :
  truthy config = true ->
  ms_build_cmd os g sol target (Some config) "/m" =
  String.concat " "
    [dquote +:+ join os (ms_build_path g) ["MSBuild.exe"] +:+ dquote;
     "/m"; "/t:" +:+ target; "/p:Configuration=" +:+ config; sol +:+ ".sln"].
Proof.
  intros Hc. unfold ms_build_cmd. rewrite Hc.
  rewrite !cmd_add_truthy
    by first [reflexivity | exact Hc | apply truthy_append_r; reflexivity].
  cbn [String.concat]. rewrite !append_assoc. reflexivity.
Qed.

(** Without a configuration no configuration flag is added. *)
Lemma ms_build_cmd_without_config
    (os : platform) (g : settings) (sol target : string) :
  ms_build_cmd os g sol target None "/m" =
  String.concat " "
    [dquote +:+ join os (ms_build_path g) ["MSBuild.exe"] +:+ dquote;
     "/m"; "/t:" +:+ target; sol +:+ ".sln"].
Proof.
  unfold ms_build_cmd.
  rewrite !cmd_add_truthy
    by first [reflexivity | apply truthy_append_r; reflexivity].
  cbn [String.concat]. rewrite !append_assoc. reflexivity.
Qed.

(** C2: for solution "ua_utilities" and configuration "Debug" the command
    [ms_build] builds is the quoted executable path, /m, /t:Build,
    /p:Configuration=Debug and ua_utilities.sln, in this order and one
    space apart; on Windows the executable is <ms_build_path>\MSBuild.exe,
    and this is the command [build] hands to the shell. *)
Theorem build_command_debug :
  (forall (os : platform) (g : settings),
     ms_build_cmd os g "ua_utilities" "Build" (Some "Debug") "/m" =
     String.concat " "
       [dquote +:+ join os (ms_build_path g) ["MSBuild.exe"] +:+ dquote;
        "/m"; "/t:Build"; "/p:Configuration=Debug"; "ua_utilities.sln"]) /\
  join nt (ms_build_path defaults) ["MSBuild.exe"]
  = ms_build_path defaults +:+ "\MSBuild.exe" /\
  (forall (w : world) (h : trace),
     snd (build nt defaults w h) =
     [Local (dquote +:+ ms_build_path defaults +:+ "\MSBuild.exe" +:+ dquote
             +:+ " /m /t:Build /p:Configuration=Debug ua_utilities.sln")]).
Proof.
  split; [|split].
  - intros os g. apply ms_build_cmd_with_config. reflexivity.
  - vm_compute. reflexivity.
  - intros w h. reflexivity.
Qed.

(** The first event of [clean] is its build command, whether or not the
    command succeeds. *)
Lemma clean_first_event (os : platform) (g : settings) (w : world) (h : trace) :
  head (snd (clean os g w h))
  = Some (Local (ms_build_cmd os g (solution g) "Clean" None "/m")).
Proof.
  unfold clean, ms_build. rewrite seq_local_run.
  destruct (shell_ok w h _); [|reflexivity].
  destruct (for_in _ _ w _) as [r e]. reflexivity.
Qed.

(** C7: with configuration "Release" the command holds the segment
    /p:Configuration=Release (and this is what [release] runs); the command
    of [clean], target Clean and no configuration, holds no
    /p:Configuration= at all. *)
Theorem configuration_segment (os : platform) :
  ms_build_cmd os defaults (solution defaults) "Build" (Some "Release") "/m"
  = String.concat " "
      [dquote +:+ join os (ms_build_path defaults) ["MSBuild.exe"] +:+ dquote;
       "/m"; "/t:Build"; "/p:Configuration=Release"; "ua_utilities.sln"] /\
  contains "/p:Configuration=Release"
    (ms_build_cmd os defaults (solution defaults) "Build" (Some "Release") "/m") = true /\
  (forall (w : world) (h : trace),
     snd (release os defaults w h)
     = [Local (ms_build_cmd os defaults (solution defaults) "Build" (Some "Release") "/m")]) /\
  ms_build_cmd os defaults (solution defaults) "Clean" None "/m"
  = String.concat " "
      [dquote +:+ join os (ms_build_path defaults) ["MSBuild.exe"] +:+ dquote;
       "/m"; "/t:Clean"; "ua_utilities.sln"] /\
  contains "/p:Configuration="
    (ms_build_cmd os defaults (solution defaults) "Clean" None "/m") = false /\
  (forall (w : world) (h : trace),
     head (snd (clean os defaults w h))
     = Some (Local (ms_build_cmd os defaults (solution defaults) "Clean" None "/m"))).
Proof.
  repeat split.
  - apply ms_build_cmd_with_config. reflexivity.
  - destruct os; vm_compute; reflexivity.
  - apply ms_build_cmd_without_config.
  - destruct os; vm_compute; reflexivity.
  - intros w h. apply clean_first_event.
Qed.

(** ** clean *)

(** The two removals for one project. *)
Lemma clean_project_run (os : platform) (p : string) (w : world) (h : trace) :
  for_in ["obj"; "bin"] (fun sf => rmtree (join os p [sf]) true) w h =
  (Returned tt, [Rmtree (join os p ["obj"]); Rmtree (join os p ["bin"])]).
Proof.
  rewrite for_in_cons, bind_run, rmtree_ignore_run. cbv beta iota.
  rewrite for_in_cons, bind_run, rmtree_ignore_run. cbv beta iota.
  rewrite for_in_nil. reflexivity.
Qed.

(** The removal loop never raises, in any world. *)
Lemma clean_loop_run (os : platform) (ps : list string) :
  forall (w : world) (h : trace),
    for_in ps (fun p => for_in ["obj"; "bin"] (fun sf => rmtree (join os p [sf]) true)) w h =
    (Returned tt,
     flat_map (fun p => [Rmtree (join os p ["obj"]); Rmtree (join os p ["bin"])]) ps).
Proof.
  induction ps as [|p ps IH]; intros w h; [reflexivity|].
  rewrite for_in_cons, bind_run, clean_project_run, IH. reflexivity.
Qed.

Lemma clean_run (os : platform) (g : settings) (w : world) (h : trace) :
  clean os g w h =
  if shell_ok w h (ms_build_cmd os g (solution g) "Clean" None "/m")
  then (Returned tt,
        Local (ms_build_cmd os g (solution g) "Clean" None "/m")
          :: flat_map (fun p => [Rmtree (join os p ["obj"]); Rmtree (join os p ["bin"])])
               (projects g))
  else (Raised (SystemExit (ms_build_cmd os g (solution g) "Clean" None "/m")),
        [Local (ms_build_cmd os g (solution g) "Clean" None "/m")]).
Proof.
  unfold clean, ms_build. rewrite seq_local_run, clean_loop_run. reflexivity.
Qed.

(** C3: [clean] first runs the build tool with target Clean on the
    solution; when that command succeeds it then attempts, for every
    project of the implementation list followed by the test list, the
    removal of the project's obj and then of its bin directory, each exactly
    once, and returns normally in every world, also when no directory
    exists.  (A failing Clean command aborts the task before any removal.) *)
Theorem clean_removes_obj_and_bin (os : platform) (w : world) (h : trace) :
  let clean_cmd :=
    String.concat " "
      [dquote +:+ ms_build_path defaults +:+ sep os +:+ "MSBuild.exe" +:+ dquote;
       "/m"; "/t:Clean"; "ua_utilities.sln"] in
  let removed :=
    flat_map (fun p => [Rmtree (p +:+ sep os +:+ "obj"); Rmtree (p +:+ sep os +:+ "bin")])
      (impl_projects defaults ++ test_projects defaults) in
  clean os defaults w h =
  (if shell_ok w h clean_cmd
   then (Returned tt, Local clean_cmd :: removed)
   else (Raised (SystemExit clean_cmd), [Local clean_cmd])) /\
  Forall (fun p => removals (p +:+ sep os +:+ "obj") removed = 1 /\
                   removals (p +:+ sep os +:+ "bin") removed = 1)
    (impl_projects defaults ++ test_projects defaults).
Proof.
  intros clean_cmd removed. split.
  - rewrite clean_run.
    replace (ms_build_cmd os defaults (solution defaults) "Clean" None "/m")
      with clean_cmd by (destruct os; vm_compute; reflexivity).
    replace (flat_map _ (projects defaults)) with removed
      by (destruct os; vm_compute; reflexivity).
    reflexivity.
  - destruct os; subst removed; repeat constructor.
Qed.

(** ** update_packages *)

Lemma update_packages_ok (os : platform) (g : settings) (w : world) (h : trace) :
  all_ok w h (map (restore_cmd os g) (projects g)) = true ->
  update_packages os g w h =
  (Returned tt, map (fun p => Local (restore_cmd os g p)) (projects g)).
Proof. apply for_in_local_ok. Qed.

(** C6: when every restore succeeds, [update_packages] runs exactly one
    restore command per project, over the implementation projects followed
    by the test projects: the quoted restore executable with the arguments
    install -OutputDirectory packages and the project's own packages.config
    (the project name, the separator of the platform, packages.config). *)
Theorem update_packages_one_restore_per_project
    (os : platform) (w : world) (h : trace) :
  all_ok w h (map (restore_cmd os defaults) (projects defaults)) = true ->
  update_packages os defaults w h =
  (Returned tt,
   map (fun p =>
          Local (dquote +:+ nuget_path defaults +:+ sep os +:+ "nuget.exe" +:+ dquote
                 +:+ " install -OutputDirectory packages "
                 +:+ p +:+ sep os +:+ "packages.config"))
       (impl_projects defaults ++ test_projects defaults)).
Proof.
  intros Hok. rewrite (update_packages_ok os defaults w h Hok).
  destruct os; vm_compute; reflexivity.
Qed.

Lemma update_packages_one_restore_per_project_witness :
  update_packages posix defaults world_all_ok [] =
  (Returned tt,
   map (fun p =>
          Local (dquote +:+ nuget_path defaults +:+ "/nuget.exe" +:+ dquote
                 +:+ " install -OutputDirectory packages "
                 +:+ p +:+ "/packages.config"))
       (impl_projects defaults ++ test_projects defaults)).
Proof.
  apply (update_packages_one_restore_per_project posix world_all_ok []).
  reflexivity.
Defined.

(** C8: when the restore of a project fails, [update_packages] (and so its
    caller [update_env]) raises that failure; the commands run are those of
    the projects before it, still in the trace, and the failing one: no
    restore is run for a later project. *)
Theorem update_packages_aborts_on_failure
    (os : platform) (g : settings) (w : world) (h : trace)
    (pre : list string) (p : string) (post : list string) :
  projects g = pre ++ p :: post ->
  all_ok w h (map (restore_cmd os g) pre) = true ->
  shell_ok w (h ++ map (fun q => Local (restore_cmd os g q)) pre) (restore_cmd os g p)
  = false ->
  update_packages os g w h =
  (Raised (SystemExit (restore_cmd os g p)),
   map (fun q => Local (restore_cmd os g q)) pre ++ [Local (restore_cmd os g p)]) /\
  update_env os g w h = update_packages os g w h.
Proof.
  intros Hps Hpre Hfail. split; [|reflexivity].
  unfold update_packages. rewrite Hps.
  apply for_in_local_fail; assumption.
Qed.

Lemma update_packages_aborts_on_failure_witness :
  update_packages nt defaults world_restore_fails [] =
  (Raised (SystemExit (restore_cmd nt defaults "ServerConsole")),
   [Local (restore_cmd nt defaults "MultiClientConsole");
    Local (restore_cmd nt defaults "ServerConsole")]) /\
  update_env nt defaults world_restore_fails []
  = update_packages nt defaults world_restore_fails [].
Proof.
  apply (update_packages_aborts_on_failure nt defaults world_restore_fails []
           ["MultiClientConsole"] "ServerConsole"
           ["OfficeConsole"; "UaclServer"; "UaclClient"; "UaclUtils";
            "TestServerConsole"; "TestOfficeConsole"; "TestUaclClient";
            "TestUaclUtils"]); reflexivity.
Defined.

(** ** Task sequences *)

(** C4: [rebuild] is [clean], then [update_env], then [build], and
    [restart] is [stop], then [rebuild], then [start]; each step starts
    from the history the earlier ones left, and when a step raises, the
    sequence raises the same error with the events emitted so far: no later
    step runs. *)
Theorem rebuild_restart_order (os : platform) (g : settings) (w : world) (h : trace) :
  rebuild os g w h =
  match clean os g w h with
  | (Raised e, e1) => (Raised e, e1)
  | (Returned _, e1) =>
      match update_env os g w (h ++ e1) with
      | (Raised e, e2) => (Raised e, e1 ++ e2)
      | (Returned _, e2) =>
          (fst (build os g w (h ++ e1 ++ e2)),
           e1 ++ e2 ++ snd (build os g w (h ++ e1 ++ e2)))
      end
  end /\
  restart os g w h =
  match stop w h with
  | (Raised e, e1) => (Raised e, e1)
  | (Returned _, e1) =>
      match rebuild os g w (h ++ e1) with
      | (Raised e, e2) => (Raised e, e1 ++ e2)
      | (Returned _, e2) =>
          (fst (start w (h ++ e1 ++ e2)),
           e1 ++ e2 ++ snd (start w (h ++ e1 ++ e2)))
      end
  end.
Proof.
  split; [unfold rebuild | unfold restart]; apply seq3_run.
Qed.

(** [rebuild] at a failing Clean command: the command is the only event, no
    restore and no build is run. *)
Lemma rebuild_stops_at_failed_clean
    (os : platform) (g : settings) (w : world) (h : trace) :
  shell_ok w h (ms_build_cmd os g (solution g) "Clean" None "/m") = false ->
  rebuild os g w h =
  (Raised (SystemExit (ms_build_cmd os g (solution g) "Clean" None "/m")),
   [Local (ms_build_cmd os g (solution g) "Clean" None "/m")]).
Proof.
  intros Hfail. unfold rebuild. rewrite bind_run, clean_run, Hfail. reflexivity.
Qed.

(** [restart] at a failing stop script: nothing is cleaned, restored, built
    or started. *)
Lemma restart_stops_at_failed_stop
    (os : platform) (g : settings) (w : world) (h : trace) :
  shell_ok w h "tools\stop.bat" = false ->
  restart os g w h = (Raised (SystemExit "tools\stop.bat"), [Local "tools\stop.bat"]).
Proof.
  intros Hfail. unfold restart, stop. rewrite seq_local_run, Hfail. reflexivity.
Qed.

(** A run of [rebuild] in which the restore of ServerConsole fails: the
    trace ends at that restore and holds no Build command. *)
Example rebuild_failed_restore :
  fst (rebuild nt defaults world_restore_fails [])
  = Raised (SystemExit (restore_cmd nt defaults "ServerConsole")) /\
  list.last (snd (rebuild nt defaults world_restore_fails []))
  = Some (Local (restore_cmd nt defaults "ServerConsole")) /\
  invocations (ms_build_cmd nt defaults "ua_utilities" "Build" (Some "Debug") "/m")
    (snd (rebuild nt defaults world_restore_fails [])) = 0.
Proof. vm_compute. repeat split. Qed.

(** * Further properties of the tasks *)

(** ** Loops of shell commands *)

(** The two ways a loop of shell commands can end: it returns after running
    every command, or it raises the failure of one element after running
    the commands up to and including that element. *)
Lemma for_in_local_outcome {A : Type} (f : A -> string) (xs : list A) :
  forall (w : world) (h : trace),
    match for_in xs (fun x => local (f x)) w h with
    | (Returned _, e) => e = map (fun x => Local (f x)) xs
    | (Raised x, e) =>
        exists (pre : list A) (y : A) (post : list A),
          xs = pre ++ y :: post /\ x = SystemExit (f y) /\
          e = map (fun x => Local (f x)) pre ++ [Local (f y)]
    end.
Proof.
  induction xs as [|x xs IH]; intros w h; [reflexivity|].
  rewrite for_in_cons, seq_local_run.
  destruct (shell_ok w h (f x)).
  - specialize (IH w (h ++ [Local (f x)])).
    destruct (for_in xs _ w _) as [[[]|e] t].
    + rewrite IH. reflexivity.
    + destruct IH as (pre & y & post & -> & -> & ->).
      exists (x :: pre), y, post. repeat split.
  - exists [], x, xs. repeat split.
Qed.

(** X5: [update_packages] ends in one of two ways, in every world: it
    returns, and then it has run the restore of every project, in order; or
    it raises the failure of the restore of one project, and then it has
    run the restores of the projects up to and including that one and of no
    other. *)
Theorem update_packages_outcome (os : platform) (g : settings) (w : world) (h : trace) :
  match update_packages os g w h with
  | (Returned _, e) => e = map (fun p => Local (restore_cmd os g p)) (projects g)
  | (Raised x, e) =>
      exists (pre : list string) (p : string) (post : list string),
        projects g = pre ++ p :: post /\ x = SystemExit (restore_cmd os g p) /\
        e = map (fun q => Local (restore_cmd os g q)) pre ++ [Local (restore_cmd os g p)]
  end.
Proof. apply (for_in_local_outcome (restore_cmd os g)). Qed.

(** ** test *)

(** X1: the [try] of [test] wraps the whole loop, so the first test project
    whose run of the test runner fails ends the testing: the projects after
    it are not tested, and the next command is the stop script. *)
Theorem test_stops_testing_at_first_failure
    (os : platform) (g : settings) (w : world) (h : trace)
    (pre : list string) (t : string) (post : list string) :
  test_projects g = pre ++ t :: post ->
  shell_ok w h "tools\start_application.bat ServerConsole" = true ->
  all_ok w (h ++ [Local "tools\start_application.bat ServerConsole"])
    (map (fun q => test_cmd os g (test_path os q)) pre) = true ->
  shell_ok w
    (h ++ [Local "tools\start_application.bat ServerConsole"]
       ++ map (fun q => Local (test_cmd os g (test_path os q))) pre)
    (test_cmd os g (test_path os t)) = false ->
  snd (test os g w h) =
  Local "tools\start_application.bat ServerConsole"
    :: map (fun q => Local (test_cmd os g (test_path os q))) pre
    ++ [Local (test_cmd os g (test_path os t)); Local "tools\stop.bat"].
Proof.
  intros Hps Hs Hpre Hfail. rewrite test_run, Hs. simpl snd.
  unfold test_loop, test_impl. rewrite Hps.
  rewrite (for_in_local_fail (fun q => test_cmd os g (test_path os q)) pre t post).
  - simpl snd. rewrite <- app_assoc. reflexivity.
  - exact Hpre.
  - rewrite <- app_assoc. exact Hfail.
Qed.

Lemma test_stops_testing_at_first_failure_witness :
  snd (test nt defaults world_second_test_fails []) =
  [Local "tools\start_application.bat ServerConsole";
   Local (test_cmd nt defaults (test_path nt "TestServerConsole"));
   Local (test_cmd nt defaults (test_path nt "TestOfficeConsole"));
   Local "tools\stop.bat"].
Proof.
  apply (test_stops_testing_at_first_failure nt defaults world_second_test_fails []
           ["TestServerConsole"] "TestOfficeConsole"
           ["TestUaclClient"; "TestUaclUtils"]); reflexivity.
Defined.

(** X2: when the server application starts and every run of the test
    runner succeeds, [test] runs, between the start and the stop script,
    one test-runner command per test project, in the order of the list: the
    quoted nunit3-console.exe under [nunit_path] applied to the project's
    dll under . / project / bin / Debug, the parts joined by the separator
    of the platform. *)
Theorem test_runs_every_test_project (os : platform) (w : world) (h : trace) :
  shell_ok w h "tools\start_application.bat ServerConsole" = true ->
  all_ok w (h ++ [Local "tools\start_application.bat ServerConsole"])
    (map (fun t => test_cmd os defaults (test_path os t)) (test_projects defaults))
  = true ->
  snd (test os defaults w h) =
  Local "tools\start_application.bat ServerConsole"
    :: map (fun t =>
              Local (dquote +:+ nunit_path defaults +:+ sep os +:+ "nunit3-console.exe"
                     +:+ dquote +:+ " ." +:+ sep os +:+ t +:+ sep os +:+ "bin"
                     +:+ sep os +:+ "Debug" +:+ sep os +:+ t +:+ ".dll"))
         (test_projects defaults)
    ++ [Local "tools\stop.bat"].
Proof.
  intros Hs Hok. rewrite test_run, Hs. simpl snd.
  unfold test_loop, test_impl.
  rewrite (for_in_local_ok (fun t => test_cmd os defaults (test_path os t)) _ _ _ Hok).
  destruct os; vm_compute; reflexivity.
Qed.

Lemma test_runs_every_test_project_witness :
  snd (test nt defaults world_all_ok []) =
  Local "tools\start_application.bat ServerConsole"
    :: map (fun t =>
              Local (dquote +:+ nunit_path defaults +:+ "\nunit3-console.exe"
                     +:+ dquote +:+ " .\" +:+ t +:+ "\bin\Debug\" +:+ t +:+ ".dll"))
         (test_projects defaults)
    ++ [Local "tools\stop.bat"].
Proof.
  apply (test_runs_every_test_project nt world_all_ok []); reflexivity.
Defined.

(** X3: the only errors [test] can raise are the failure of the start of
    the server application and the failure of the stop script; it never
    raises the failure of a test-runner command or any other error. *)
Theorem test_raises_only_start_or_stop
    (os : platform) (g : settings) (w : world) (h : trace) (e : exn) :
  fst (test os g w h) = Raised e ->
  e = SystemExit "tools\start_application.bat ServerConsole" \/
  e = SystemExit "tools\stop.bat".
Proof.
  rewrite test_run.
  destruct (shell_ok w h _); [destruct (shell_ok w _ _)|]; simpl; intros H.
  - discriminate H.
  - right. congruence.
  - left. congruence.
Qed.

Lemma test_raises_only_start_or_stop_witness :
  SystemExit "tools\start_application.bat ServerConsole"
  = SystemExit "tools\start_application.bat ServerConsole" \/
  SystemExit "tools\start_application.bat ServerConsole" = SystemExit "tools\stop.bat".
Proof.
  apply (test_raises_only_start_or_stop nt defaults world_all_fail []).
  reflexivity.
Defined.

(** ** ms_build *)

(** X4: for all arguments, the command of [ms_build] is the quoted
    executable followed by those of [more], /t:target, the configuration
    flag and solution.sln that are not empty, joined by single spaces: an
    empty [more] and an empty or missing [config] leave no segment and no
    second space behind. *)
Theorem ms_build_cmd_segments
    (os : platform) (g : settings)
    (sol target : string) (config : option string) (more : string) :
  ms_build_cmd os g sol target config more =
  String.concat " "
    (List.filter truthy
       [dquote +:+ join os (ms_build_path g) ["MSBuild.exe"] +:+ dquote;
        more; "/t:" +:+ target; config_segment config; sol +:+ ".sln"]).
Proof.
  assert (Hs : truthy (sol +:+ ".sln") = true) by (apply truthy_append_r; reflexivity).
  unfold ms_build_cmd, cmd_add, config_segment.
  change (truthy ("/t:" +:+ target)) with true.
  cbn [List.filter].
  change (truthy (dquote +:+ join os (ms_build_path g) ["MSBuild.exe"] +:+ dquote))
    with true.
  change (truthy ("/t:" +:+ target)) with true.
  rewrite Hs.
  destruct more as [|m more]; destruct config as [[|c config]|];
    cbn [truthy List.filter String.concat];
    repeat match goal with
      | |- context [truthy ("/p:Configuration=" +:+ ?x)] =>
          change (truthy ("/p:Configuration=" +:+ x)) with true
      end;
    cbn [List.filter]; rewrite ?Hs; cbn [String.concat];
    rewrite ?append_assoc; reflexivity.
Qed.

(** ** rebuild and restart *)

Lemma all_ok_always (w : world) (commands : list string) :
  (forall (h : trace) (c : string), shell_ok w h c = true) ->
  forall h : trace, all_ok w h commands = true.
Proof.
  intros Hw. induction commands as [|c cs IH]; intros h; [reflexivity|].
  simpl. rewrite Hw, IH. reflexivity.
Qed.

(** X6: when every shell command succeeds, [restart] returns after running,
    in this order: the stop script, the Clean command, the removal of obj
    and bin of every project, the restore of every project, the Debug build
    and the start script. *)
Theorem restart_runs_everything_in_order
    (os : platform) (g : settings) (w : world) (h : trace) :
  (forall (h' : trace) (c : string), shell_ok w h' c = true) ->
  restart os g w h =
  (Returned tt,
   Local "tools\stop.bat"
     :: Local (ms_build_cmd os g (solution g) "Clean" None "/m")
     :: flat_map (project_removals os) (projects g)
     ++ map (fun p => Local (restore_cmd os g p)) (projects g)
     ++ [Local (ms_build_cmd os g (solution g) "Build" (Some "Debug") "/m");
         Local "tools\start.bat"]).
Proof.
  intros Hw. unfold restart, rebuild. rewrite seq3_run.
  unfold stop at 1. rewrite local_run, Hw.
  rewrite seq3_run, clean_run, Hw.
  unfold update_env. rewrite update_packages_ok by (apply all_ok_always, Hw).
  unfold build, ms_build, start. rewrite !local_run, !Hw.
  simpl. rewrite <- !app_assoc. reflexivity.
Qed.

Lemma restart_runs_everything_in_order_witness :
  fst (restart posix defaults world_all_ok []) = Returned tt /\
  length (snd (restart posix defaults world_all_ok [])) = 34.
Proof.
  rewrite (restart_runs_everything_in_order posix defaults world_all_ok []).
  - split; reflexivity.
  - intros h' c. reflexivity.
Defined.

Lemma last_append (a b : string) :
  truthy b = true -> pystr.last (a +:+ b) = pystr.last b.
Proof.
  intros Hb. induction a as [|c a IH]; [reflexivity|].
  change (String c a +:+ b) with (String c (a +:+ b)).
  pose proof (truthy_append_r a b Hb) as Hab.
  destruct (a +:+ b) as [|d r] eqn:E; [discriminate Hab|].
  cbn [pystr.last]. exact IH.
Qed.

(** A path joined with packages.config ends in packages.config. *)
Lemma join_packages_config_last (os : platform) (p : string) :
  pystr.last (join os p ["packages.config"]) = Some "g"%char.
Proof.
  destruct os; cbn [join].
  - unfold nt_join. cbn [fold_left]. unfold nt_join_step.
    destruct (nt_splitdrive p) as [rd rp].
    change (nt_splitdrive "packages.config") with (EmptyString, "packages.config").
    cbn [truthy first is_nt_sep andb negb].
    change (Ascii.eqb "p" backslash || Ascii.eqb "p" slash) with false.
    cbv iota.
    repeat match goal with
           | |- context [if ?b then _ else _] => destruct b
           end;
      rewrite ?append_assoc;
      repeat (rewrite last_append by first [reflexivity | apply truthy_append_r; reflexivity]);
      reflexivity.
  - unfold posix_join. cbn [fold_left]. unfold posix_join_step.
    change (String.prefix "/" "packages.config") with false. cbv iota.
    destruct (negb (truthy p) || _);
      repeat (rewrite last_append by reflexivity); reflexivity.
Qed.

Lemma restore_cmd_not_build (os : platform) (g : settings) (q sol : string) :
  restore_cmd os g q <> ms_build_cmd os g sol "Build" (Some "Debug") "/m".
Proof.
  intros H. apply (f_equal pystr.last) in H.
  rewrite ms_build_cmd_with_config in H by reflexivity.
  unfold restore_cmd in H. cbn [String.concat] in H.
  assert (Hl : truthy (join os q ["packages.config"]) = true).
  { pose proof (join_packages_config_last os q) as Hj.
    destruct (join os q ["packages.config"]); [discriminate Hj|reflexivity]. }
  repeat (rewrite last_append in H
            by first [exact Hl | reflexivity | apply truthy_append_r;
                      first [exact Hl | reflexivity | apply truthy_append_r; reflexivity]]).
  rewrite join_packages_config_last in H.
  change (pystr.last ".sln") with (Some "n"%char) in H.
  discriminate H.
Qed.

Lemma append_inj_l (a x y : string) : a +:+ x = a +:+ y -> x = y.
Proof.
  induction a as [|c a IH]; intros H; [exact H|].
  apply IH. injection H as H. exact H.
Qed.

Lemma clean_cmd_not_build (os : platform) (g : settings) (sol : string) :
  ms_build_cmd os g sol "Clean" None "/m"
  <> ms_build_cmd os g sol "Build" (Some "Debug") "/m".
Proof.
  rewrite ms_build_cmd_with_config by reflexivity.
  rewrite ms_build_cmd_without_config.
  cbn [String.concat]. intros H.
  apply append_inj_l in H. discriminate H.
Qed.

(** X7: when the Clean command and the restores of the first projects
    succeed and the restore of a later project fails, [rebuild] raises that
    failure after the obj and bin directories of every project have
    already been removed; the build is never run. *)
Theorem rebuild_fails_after_cleaning
    (os : platform) (g : settings) (w : world) (h : trace)
    (pre : list string) (p : string) (post : list string) :
  let cleaned :=
    Local (ms_build_cmd os g (solution g) "Clean" None "/m")
      :: flat_map (project_removals os) (projects g) in
  projects g = pre ++ p :: post ->
  shell_ok w h (ms_build_cmd os g (solution g) "Clean" None "/m") = true ->
  all_ok w (h ++ cleaned) (map (restore_cmd os g) pre) = true ->
  shell_ok w ((h ++ cleaned) ++ map (fun q => Local (restore_cmd os g q)) pre)
    (restore_cmd os g p) = false ->
  rebuild os g w h =
  (Raised (SystemExit (restore_cmd os g p)),
   cleaned ++ map (fun q => Local (restore_cmd os g q)) pre
     ++ [Local (restore_cmd os g p)]) /\
  invocations (ms_build_cmd os g (solution g) "Build" (Some "Debug") "/m")
    (snd (rebuild os g w h)) = 0.
Proof.
  intros cleaned Hps Hclean Hpre Hfail.
  assert (Hrun : rebuild os g w h =
                 (Raised (SystemExit (restore_cmd os g p)),
                  cleaned ++ map (fun q => Local (restore_cmd os g q)) pre
                    ++ [Local (restore_cmd os g p)])).
  { unfold rebuild. rewrite seq3_run, clean_run, Hclean.
    fold (project_removals os). fold cleaned.
    unfold update_env, update_packages. rewrite Hps.
    rewrite (for_in_local_fail (restore_cmd os g) pre p post _ _ Hpre Hfail).
    reflexivity. }
  split; [exact Hrun|].
  rewrite Hrun. simpl snd. subst cleaned.
  rewrite invocations_cons, !invocations_app.
  rewrite decide_False.
  - assert (Hrm : forall ps, invocations
                    (ms_build_cmd os g (solution g) "Build" (Some "Debug") "/m")
                    (flat_map (project_removals os) ps) = 0).
    { induction ps as [|x ps IH]; [reflexivity|exact IH]. }
    assert (Hre : forall ps, invocations
                    (ms_build_cmd os g (solution g) "Build" (Some "Debug") "/m")
                    (map (fun q => Local (restore_cmd os g q)) ps) = 0).
    { induction ps as [|x ps IH]; [reflexivity|].
      simpl map. rewrite invocations_cons, IH, decide_False; [reflexivity|].
      apply restore_cmd_not_build. }
    rewrite Hrm, Hre. change [Local (restore_cmd os g p)]
      with (map (fun q => Local (restore_cmd os g q)) [p]).
    rewrite Hre. reflexivity.
  - apply clean_cmd_not_build.
Qed.

Lemma rebuild_fails_after_cleaning_witness :
  fst (rebuild nt defaults world_restore_fails [])
  = Raised (SystemExit (restore_cmd nt defaults "ServerConsole")) /\
  removals "TestUaclUtils\bin" (snd (rebuild nt defaults world_restore_fails [])) = 1 /\
  invocations (ms_build_cmd nt defaults "ua_utilities" "Build" (Some "Debug") "/m")
    (snd (rebuild nt defaults world_restore_fails [])) = 0.
Proof.
  destruct (rebuild_fails_after_cleaning nt defaults world_restore_fails []
              ["MultiClientConsole"] "ServerConsole"
              ["OfficeConsole"; "UaclServer"; "UaclClient"; "UaclUtils";
               "TestServerConsole"; "TestOfficeConsole"; "TestUaclClient";
               "TestUaclUtils"]) as [Hrun Hbuild]; try reflexivity.
  split; [rewrite Hrun; reflexivity|].
  split; [rewrite Hrun; reflexivity|exact Hbuild].
Defined.

(** ** Start-up: what a fabfile_local can add *)



(** ** clean, for any project list *)

Lemma removals_of_projects (os : platform) (ps : list string) :
  length (List.filter is_removal (flat_map (project_removals os) ps)) = 2 * length ps.
Proof.
  induction ps as [|p ps IH]; [reflexivity|].
  cbn [flat_map project_removals app List.filter is_removal length].
  rewrite IH. lia.
Qed.

(** X9: for any settings (also an empty project list or one that names a
    project twice) and in any world, [clean] either returns or raises the
    failure of its Clean command, never an error of a removal; it attempts
    two removals per project when the Clean command succeeds and none when
    it fails; and which directories can be removed changes neither its
    outcome nor its events. *)
Theorem clean_outcome
    (os : platform) (g : settings) (w : world) (h : trace)
    (removable : trace -> string -> bool) :
  (fst (clean os g w h) = Returned tt \/
   fst (clean os g w h)
   = Raised (SystemExit (ms_build_cmd os g (solution g) "Clean" None "/m"))) /\
  length (List.filter is_removal (snd (clean os g w h)))
  = (if shell_ok w h (ms_build_cmd os g (solution g) "Clean" None "/m")
     then 2 * length (projects g) else 0) /\
  clean os g (World (shell_ok w) removable) h = clean os g w h.
Proof.
  rewrite !clean_run. cbn [shell_ok].
  destruct (shell_ok w h _).
  - split; [left; reflexivity|]. split; [|reflexivity].
    cbn [snd List.filter is_removal]. apply removals_of_projects.
  - split; [right; reflexivity|]. split; reflexivity.
Qed.
